(** * django-ninja-crud: views and view sets

    A shallow embedding of [ninja_crud/views/abstract.py],
    [ninja_crud/views/retrieve.py] and [ninja_crud/views/viewset.py].

    Python objects are modelled by the data the three modules touch:
    - exceptions are values of [exn], and a call that may raise returns a
      [result];
    - a class object carries its name, its own namespace, its bases and its
      method resolution order, and [getattr], [hasattr] and [dir] read them
      the way the interpreter does;
    - the router of the host framework is the log of the registration calls
      made on it (what a [MagicMock] router records). *)

From Stdlib Require Import String Ascii List ZArith PArith Bool Lia.
From Stdlib Require Import Sorted Permutation RelationClasses.
From Stdlib Require Import Structures.OrdersEx.
Import ListNotations.
Local Open Scope string_scope.
Local Open Scope list_scope.

(** ** Exceptions and fallible calls *)

Inductive exn : Type :=
| ValueError (msg : string)
| AttributeError (msg : string)
| TypeError (msg : string)
| DoesNotExist (msg : string)
| MultipleObjectsReturned (msg : string).

Inductive result (A : Type) : Type :=
| Ok (a : A)
| Raise (e : exn).

Arguments Ok {A} a.
Arguments Raise {A} e.

Definition bind {A B : Type} (m : result A) (k : A -> result B) : result B :=
  match m with
  | Ok a => k a
  | Raise e => Raise e
  end.

Notation "x <- m ;; k" := (bind m (fun x => k))
  (at level 61, m at next level, right associativity).
Notation "m ;;; k" := (bind m (fun _ => k))
  (at level 61, right associativity).

Definition raises {A : Type} (m : result A) : Prop :=
  exists e, m = Raise e.

(** ** The host framework, as far as the views use it *)

(** A value of type [Any] used as an identifier: [None], an integer or a
    string (a UUID is carried as its string). *)
Inductive pyany : Type :=
| PNone
| PInt (z : Z)
| PStr (s : string).

Definition pyany_eqb (a b : pyany) : bool :=
  match a, b with
  | PNone, PNone => true
  | PInt x, PInt y => Z.eqb x y
  | PStr x, PStr y => String.eqb x y
  | _, _ => false
  end.

(** The type [utils.get_id_type] chooses for the path parameter. *)
Inductive pytype : Type := TInt | TStr | TUUID.

(** A model instance: its primary key and the rest of the row. *)
Record Instance : Type := {
  inst_pk : pyany;
  inst_row : string
}.

(** A [QuerySet] is used through one method only, [get(pk=id)]. *)
Record QuerySet : Type := {
  qs_get : pyany -> result Instance
}.

(** A concrete subclass of [django.db.models.Model]: [__name__], the type of
    its primary key field and [objects.get_queryset()]. *)
Record DjangoModel : Type := {
  model_name : string;
  model_pk_type : pytype;
  objects_get_queryset : QuerySet
}.

Record Schema : Type := { schema_name : string }.

Record HttpRequest : Type := { request_path : string }.

(** [http.HTTPStatus.OK] *)
Definition HTTPStatus_OK : Z := 200.

(** A view function: the annotation of its [id] parameter and what a call
    does. *)
Record ViewFunc : Type := {
  id_annotation : pytype;
  call : HttpRequest -> pyany -> result (Z * Instance)
}.

Definition Decorator : Type := ViewFunc -> ViewFunc.

Inductive HttpVerb : Type := GET | POST | PUT | PATCH | DELETE.

(** A keyword argument of a registration call. *)
Inductive kwarg : Type :=
| KStr (s : string)
| KBool (b : bool)
| KInt (z : Z)
| KSchema (s : Schema).

Definition kwargs : Type := list (string * kwarg).

Fixpoint kw_lookup (k : string) (kw : kwargs) : option kwarg :=
  match kw with
  | [] => None
  | (k', v) :: rest => if String.eqb k k' then Some v else kw_lookup k rest
  end.

(** One call [router.verb(path=..., ...)(view_func)]: the verb, the keyword
    arguments and the function the returned decorator was applied to. *)
Record RouterCall : Type := {
  rc_verb : HttpVerb;
  rc_kwargs : kwargs;
  rc_view_func : ViewFunc
}.

(** The router: the registration calls made on it, oldest first. *)
Definition Router : Type := list RouterCall.

Definition router_api_operation (verb : HttpVerb) (kw : kwargs)
  (f : ViewFunc) (router : Router) : Router :=
  router ++ [ {| rc_verb := verb; rc_kwargs := kw; rc_view_func := f |} ].

Definition router_get := router_api_operation GET.

(** ** [ninja_crud.views.utils]

    The module is imported by [retrieve.py] and is not part of the sources
    at hand, so the views take it as an argument. *)
Record Utils : Type := {
  to_snake_case : string -> string;
  merge_decorators : list Decorator -> Decorator;
  get_id_type : DjangoModel -> pytype
}.

(** Modelled from the spec: [utils.merge_decorators], "decorator-list
    composition (apply a sequence of wrapping functions to a handler in
    order)". *)
Definition merge_decorators_spec (decorators : list Decorator) : Decorator :=
  fun func => fold_left (fun f decorator => decorator f) decorators func.

(** Capital letters and their small letters, for [to_snake_case_spec]. *)
Definition is_upper (c : ascii) : bool :=
  let n := nat_of_ascii c in (65 <=? n)%nat && (n <=? 90)%nat.

Definition lower (c : ascii) : ascii :=
  if is_upper c then ascii_of_nat (nat_of_ascii c + 32) else c.

Fixpoint snake_tail (s : string) : string :=
  match s with
  | EmptyString => EmptyString
  | String c rest =>
      if is_upper c
      then String "_" (String (lower c) (snake_tail rest))
      else String c (snake_tail rest)
  end.

(** Modelled from the spec: [utils.to_snake_case], "identifier-style case
    conversion (PascalCase/camelCase model name -> snake_case token for
    operation ids)": every capital becomes its small letter, preceded by an
    underscore unless it starts the name. *)
Definition to_snake_case_spec (name : string) : string :=
  match name with
  | EmptyString => EmptyString
  | String c rest => String (lower c) (snake_tail rest)
  end.

(** Modelled from the spec: [utils.get_id_type], "primary-key type lookup
    (inspect the model's primary key field to choose the correct
    path-parameter type)". *)
Definition get_id_type_spec (model_class : DjangoModel) : pytype :=
  model_pk_type model_class.

Definition spec_utils : Utils := {|
  to_snake_case := to_snake_case_spec;
  merge_decorators := merge_decorators_spec;
  get_id_type := get_id_type_spec
|}.

(** ** [abstract.py] *)

Module AbstractModelView.

(** An instance of a concrete subclass: the attribute [__init__] sets and the
    two methods every subclass has to provide, bound to the instance. *)
Record t : Type := {
  decorators : list Decorator;
  register_route : Router -> DjangoModel -> Router;
  get_path : string
}.

Definition __init__ (decorators : option (list Decorator)) : list Decorator :=
  match decorators with
  | None => []
  | Some ds => ds
  end.

End AbstractModelView.

(** ** [retrieve.py] *)

Module RetrieveModelView.

Record t : Type := {
  decorators : list Decorator;
  output_schema : Schema;
  queryset_getter : option (pyany -> result QuerySet)
}.

Definition __init__ (output_schema : Schema)
  (queryset_getter : option (pyany -> result QuerySet))
  (decorators : option (list Decorator)) : t :=
  {| decorators := AbstractModelView.__init__ decorators;
     output_schema := output_schema;
     queryset_getter := queryset_getter |}.

Definition get_queryset (self : t) (model_class : DjangoModel) (id : pyany)
  : result QuerySet :=
  match queryset_getter self with
  | None => Ok (objects_get_queryset model_class)
  | Some getter => getter id
  end.

Definition get_path (self : t) : string := "/{id}".

(** The closure [retrieve_model] that [register_route] defines. *)
Definition retrieve_model (utils : Utils) (self : t)
  (model_class : DjangoModel) : ViewFunc :=
  {| id_annotation := get_id_type utils model_class;
     call := fun request id =>
       queryset <- get_queryset self model_class id ;;
       instance <- qs_get queryset id ;;
       Ok (HTTPStatus_OK, instance) |}.

Definition register_route (utils : Utils) (self : t) (router : Router)
  (model_class : DjangoModel) : Router :=
  router_get
    [ ("path", KStr (get_path self));
      ("response", KSchema (output_schema self));
      ("operation_id",
        KStr ("retrieve_" ++ to_snake_case utils (model_name model_class)));
      ("summary", KStr ("Retrieve " ++ model_name model_class)) ]
    (merge_decorators utils (decorators self)
       (retrieve_model utils self model_class))
    router.

(** A [RetrieveModelView] seen as the [AbstractModelView] it is. *)
Definition as_view (utils : Utils) (self : t) : AbstractModelView.t :=
  {| AbstractModelView.decorators := decorators self;
     AbstractModelView.register_route := register_route utils self;
     AbstractModelView.get_path := get_path self |}.

End RetrieveModelView.

(** ** Python class objects *)

(** What a class attribute can hold. The two tests the view set makes on a
    value, [isinstance(v, type) and issubclass(v, Model)] and
    [isinstance(v, AbstractModelView)], are decided by its constructor. *)
Inductive value : Type :=
| VNone
| VInt (z : Z)
| VStr (s : string)
| VFunction (qualname : string)
| VModelClass (m : DjangoModel)
| VClass (name : string)
| VView (v : AbstractModelView.t)
| VObject (repr : string).

Definition isinstance_type (v : value) : bool :=
  match v with
  | VModelClass _ | VClass _ => true
  | _ => false
  end.

Definition issubclass_Model (v : value) : bool :=
  match v with
  | VModelClass _ => true
  | _ => false
  end.

Definition isinstance_AbstractModelView (v : value) : bool :=
  match v with
  | VView _ => true
  | _ => false
  end.

(** A class body's namespace, in declaration order. As in a [dict], a key
    is bound once; a lookup returns the binding of the key. *)
Definition namespace : Type := list (string * value).

Definition keys (ns : namespace) : list string := map fst ns.

Fixpoint ns_lookup (name : string) (ns : namespace) : option value :=
  match ns with
  | [] => None
  | (k, v) :: rest => if String.eqb name k then Some v else ns_lookup name rest
  end.

(** A class object. [cls_id] is the identity of the object ([id(cls)]):
    two classes may share [__name__]. [mro_tail] is [__mro__] without the
    class itself. *)
#[warnings="-register-all"]
Inductive pyclass : Type := MkClass {
  cls_id : positive;
  __name__ : string;
  __dict__ : namespace;
  __bases__ : list pyclass;
  mro_tail : list pyclass
}.

Definition __mro__ (cls : pyclass) : list pyclass := cls :: mro_tail cls.

Definition class_is (a b : pyclass) : bool := Pos.eqb (cls_id a) (cls_id b).

(** *** The C3 linearisation of [type.__new__] *)

Definition in_tail (c : pyclass) (seq : list pyclass) : bool :=
  match seq with
  | [] => false
  | _ :: rest => existsb (class_is c) rest
  end.

Definition nonempty (seq : list pyclass) : bool :=
  match seq with
  | [] => false
  | _ :: _ => true
  end.

(** The first head, in the order of the sequences, that is in no tail. *)
Fixpoint find_candidate (candidates seqs : list (list pyclass))
  : option pyclass :=
  match candidates with
  | [] => None
  | [] :: rest => find_candidate rest seqs
  | (c :: _) :: rest =>
      if existsb (in_tail c) seqs then find_candidate rest seqs else Some c
  end.

Definition drop_head (c : pyclass) (seq : list pyclass) : list pyclass :=
  match seq with
  | [] => []
  | h :: rest => if class_is c h then rest else seq
  end.

Fixpoint merge (fuel : nat) (seqs : list (list pyclass))
  : option (list pyclass) :=
  match fuel with
  | O => None
  | S fuel' =>
      match filter nonempty seqs with
      | [] => Some []
      | live =>
          match find_candidate live live with
          | None => None
          | Some c =>
              option_map (cons c) (merge fuel' (map (drop_head c) live))
          end
      end
  end.

Definition total_length (seqs : list (list pyclass)) : nat :=
  fold_right (fun seq n => (length seq + n)%nat) O seqs.

(** Every round takes a class off the sequences, so their total length is
    fuel enough; [None] is an inconsistent hierarchy. *)
Definition mro_merge (seqs : list (list pyclass)) : option (list pyclass) :=
  merge (S (total_length seqs)) seqs.

(** The class [object]. Its dunder attributes are left out: none of them is
    named [model_class] and none holds a view. *)
Definition object_ : pyclass :=
  {| cls_id := 1; __name__ := "object"; __dict__ := [];
     __bases__ := []; mro_tail := [] |}.

(** [type.__new__(mcs, name, bases, attrs)]; [oid] is the identity of the
    object it allocates. The dunder entries it adds to the namespace are
    left out, as for [object]. *)
Definition type_new (oid : positive) (name : string) (bases : list pyclass)
  (attrs : namespace) : result pyclass :=
  let bases := match bases with [] => [object_] | _ => bases end in
  match mro_merge (map __mro__ bases ++ [bases]) with
  | Some tail =>
      Ok {| cls_id := oid; __name__ := name; __dict__ := attrs;
            __bases__ := bases; mro_tail := tail |}
  | None =>
      Raise (TypeError
        "Cannot create a consistent method resolution order (MRO) for bases")
  end.

(** *** Attribute access on a class

    A name is looked up in the namespaces of [__mro__], the class first.
    What the metaclass itself provides ([__name__], [__mro__], ...) is not
    listed by [dir] and is never looked up by name in [viewset.py]. *)

Fixpoint mro_lookup (name : string) (classes : list pyclass) : option value :=
  match classes with
  | [] => None
  | c :: rest =>
      match ns_lookup name (__dict__ c) with
      | Some v => Some v
      | None => mro_lookup name rest
      end
  end.

Definition hasattr (cls : pyclass) (name : string) : bool :=
  match mro_lookup name (__mro__ cls) with
  | Some _ => true
  | None => false
  end.

Definition getattr (cls : pyclass) (name : string) : result value :=
  match mro_lookup name (__mro__ cls) with
  | Some v => Ok v
  | None =>
      Raise (AttributeError
        ("type object '" ++ __name__ cls ++ "' has no attribute '"
           ++ name ++ "'"))
  end.

(** The order of [str]: by code point, position by position. *)
Definition str_leb (a b : string) : bool :=
  match String_as_OT.compare a b with
  | Gt => false
  | _ => true
  end.

Fixpoint insert_sorted (x : string) (l : list string) : list string :=
  match l with
  | [] => [x]
  | y :: rest => if str_leb x y then x :: l else y :: insert_sorted x rest
  end.

Definition sorted (l : list string) : list string :=
  fold_right insert_sorted [] l.

(** [dir(cls)]: the names bound in the class and in the classes it derives
    from, each once, sorted. *)
Definition dir (cls : pyclass) : list string :=
  sorted
    (nodup string_dec
       (flat_map (fun c => keys (__dict__ c)) (__mro__ cls))).

(** ** [viewset.py] *)

Module ModelViewSetMeta.

Definition validate_model_class (new_cls : pyclass) : result unit :=
  let cls_attr_name := "model_class" in
  if negb (hasattr new_cls cls_attr_name) then
    Raise (ValueError
      (__name__ new_cls ++ "." ++ cls_attr_name
         ++ " class attribute must be set"))
  else
    cls_attr_value <- getattr new_cls cls_attr_name ;;
    if negb (isinstance_type cls_attr_value)
       || negb (issubclass_Model cls_attr_value)
    then
      Raise (ValueError
        (__name__ new_cls ++ "." ++ cls_attr_name
           ++ " must be a subclass of django.db.models.Model"))
    else Ok tt.

Definition __new__ (oid : positive) (name : string) (bases : list pyclass)
  (attrs : namespace) : result pyclass :=
  new_cls <- type_new oid name bases attrs ;;
  (if negb (String.eqb name "ModelViewSet")
   then validate_model_class new_cls
   else Ok tt) ;;;
  Ok new_cls.

End ModelViewSetMeta.

Module ModelViewSet.

(** The namespace of the class statement. The annotation
    [model_class: Type[Model]] binds no attribute; it is an entry of
    [__annotations__]. *)
Definition attrs : namespace :=
  [ ("__module__", VStr "ninja_crud.views.viewset");
    ("__qualname__", VStr "ModelViewSet");
    ("__doc__", VStr "Base class for creating view sets for Django models.");
    ("__annotations__", VObject "{'model_class': 'Type[Model]'}");
    ("register_routes", VFunction "ModelViewSet.register_routes") ].

(** The class object of [ModelViewSet]. *)
Definition cls : pyclass :=
  {| cls_id := 2; __name__ := "ModelViewSet"; __dict__ := attrs;
     __bases__ := [object_]; mro_tail := [object_] |}.

(** The call [attr_value.register_route(router, model_class)]. The method
    is declared for [Type[Model]]; a value that is no model class lacks what
    a view reads from it (the manager, the primary key field), and the call
    fails. *)
Definition call_register_route (attr_value : value) (router : Router)
  (model_class : value) : result Router :=
  match attr_value with
  | VView view =>
      match model_class with
      | VModelClass m => Ok (AbstractModelView.register_route view router m)
      | _ =>
          Raise (AttributeError
            "model_class is not a django.db.models.Model class")
      end
  | _ => Raise (AttributeError "object has no attribute 'register_route'")
  end.

(** The [for] loop, over the names still to visit. *)
Fixpoint for_attr_name (cls : pyclass) (names : list string)
  (router : Router) : result Router :=
  match names with
  | [] => Ok router
  | attr_name :: rest =>
      attr_value <- getattr cls attr_name ;;
      if isinstance_AbstractModelView attr_value then
        model_class <- getattr cls "model_class" ;;
        router' <- call_register_route attr_value router model_class ;;
        for_attr_name cls rest router'
      else for_attr_name cls rest router
  end.

Definition register_routes (cls : pyclass) (router : Router)
  : result Router :=
  for_attr_name cls (dir cls) router.

End ModelViewSet.

(** ** Vocabulary of the statements *)

(** [issubclass(cls, base)] *)
Definition issubclass (cls base : pyclass) : bool :=
  existsb (class_is base) (__mro__ cls).

(** Whether the attribute [name] of the class holds a view. *)
Definition holds_view (cls : pyclass) (name : string) : bool :=
  match mro_lookup name (__mro__ cls) with
  | Some v => isinstance_AbstractModelView v
  | None => false
  end.

(** The names among [names] that hold a view, with the view. *)
Definition views_among (cls : pyclass) (names : list string)
  : list (string * AbstractModelView.t) :=
  flat_map
    (fun attr_name =>
       match mro_lookup attr_name (__mro__ cls) with
       | Some (VView view) => [(attr_name, view)]
       | _ => []
       end) names.

(** The class attributes that hold a view, in the order of [dir(cls)]:
    name and value. *)
Definition view_attributes (cls : pyclass)
  : list (string * AbstractModelView.t) :=
  views_among cls (dir cls).

(** One call [view.register_route(router, model_class)] per entry, first
    entry first, each on the router the previous call left. *)
Definition register_each (model_class : DjangoModel)
  (calls : list (string * AbstractModelView.t)) (router : Router) : Router :=
  fold_left
    (fun r call => AbstractModelView.register_route (snd call) r model_class)
    calls router.

(** A view whose [register_route] makes exactly one registration call on the
    router, the same whatever the router already holds. *)
Definition registers_one_route (view : AbstractModelView.t) : Prop :=
  exists route : DjangoModel -> RouterCall,
    forall router model_class,
      AbstractModelView.register_route view router model_class
      = router ++ [route model_class].

Definition str_lt (a b : string) : Prop := String_as_OT.lt a b.

(** No two classes of the list are the same object. *)
Definition distinct_ids (classes : list pyclass) : Prop :=
  NoDup (map cls_id classes).

(** A handler wrapped by each decorator of the list in turn, the first of
    the list first. *)
Fixpoint wrapped_by_each (decorators : list Decorator) (handler : ViewFunc)
  : ViewFunc :=
  match decorators with
  | [] => handler
  | decorator :: rest => wrapped_by_each rest (decorator handler)
  end.

(** [register_routes(router)] returns after it has called
    [register_route(router, cls.model_class)] once for every attribute of
    the class that holds a view, and for no other attribute. *)
Definition registers_each_view_once (cls : pyclass) (router : Router) : Prop :=
  exists model_class,
    getattr cls "model_class" = Ok (VModelClass model_class)
    /\ ModelViewSet.register_routes cls router
       = Ok (register_each model_class (view_attributes cls) router)
    /\ NoDup (map fst (view_attributes cls))
    /\ (forall name view,
          In (name, view) (view_attributes cls)
          <-> getattr cls name = Ok (VView view))
    /\ (forall name v,
          getattr cls name = Ok v ->
          (In name (map fst (view_attributes cls))
           <-> isinstance_AbstractModelView v = true)).

(** A second [register_routes(router)] on the same router makes the calls
    of the first once more; where every view registers one route, the
    router ends with every route twice. *)
Definition registers_twice (cls : pyclass) (router : Router) : Prop :=
  exists model_class router1 router2,
    getattr cls "model_class" = Ok (VModelClass model_class)
    /\ ModelViewSet.register_routes cls router = Ok router1
    /\ ModelViewSet.register_routes cls router1 = Ok router2
    /\ router1 = register_each model_class (view_attributes cls) router
    /\ router2 = register_each model_class (view_attributes cls) router1
    /\ (Forall registers_one_route (map snd (view_attributes cls)) ->
        exists routes,
          length routes = length (view_attributes cls)
          /\ routes <> []
          /\ router1 = router ++ routes
          /\ router2 = router ++ routes ++ routes).

(** What the route of a Retrieve view for [model_class] looks like: verb,
    path and operation id. *)
Definition retrieve_route_shape (utils : Utils) (model_class : DjangoModel)
  (route : RouterCall) : Prop :=
  rc_verb route = GET
  /\ kw_lookup "path" (rc_kwargs route) = Some (KStr "/{id}")
  /\ kw_lookup "operation_id" (rc_kwargs route)
     = Some (KStr ("retrieve_"
                     ++ to_snake_case utils (model_name model_class))).

(** Whether the class body leaves the name of the entry unbound. *)
Definition not_rebound (cls : pyclass)
  (entry : string * AbstractModelView.t) : bool :=
  match ns_lookup (fst entry) (__dict__ cls) with
  | None => true
  | Some _ => false
  end.

(** ** Test application: models, views and view sets *)

Module TestApp.

(** An in-memory table behind [QuerySet.get]: the row with the primary key,
    [DoesNotExist] when there is none, [MultipleObjectsReturned] when there
    are several. *)
Definition table (model : string) (rows : list Instance) : QuerySet :=
  {| qs_get := fun id =>
       match filter (fun row => pyany_eqb (inst_pk row) id) rows with
       | [] =>
           Raise (DoesNotExist (model ++ " matching query does not exist."))
       | [row] => Ok row
       | _ => Raise (MultipleObjectsReturned model)
       end |}.

Definition rock : Instance := {| inst_pk := PInt 1; inst_row := "rock" |}.
Definition jazz : Instance := {| inst_pk := PInt 2; inst_row := "jazz" |}.

Definition Collection : DjangoModel :=
  {| model_name := "Collection"; model_pk_type := TInt;
     objects_get_queryset := table "Collection" [rock; jazz] |}.

Definition Item : DjangoModel :=
  {| model_name := "Item"; model_pk_type := TUUID;
     objects_get_queryset := table "Item" [] |}.

Definition CollectionOut : Schema := {| schema_name := "CollectionOut" |}.
Definition ItemOut : Schema := {| schema_name := "ItemOut" |}.

Definition request : HttpRequest := {| request_path := "/collections/1" |}.

(** Two decorators that leave their mark on the row they pass on. *)
Definition tag (mark : string) : Decorator :=
  fun f =>
    {| id_annotation := id_annotation f;
       call := fun request id =>
         match call f request id with
         | Ok (status, row) =>
             Ok (status,
                 {| inst_pk := inst_pk row;
                    inst_row := mark ++ "(" ++ inst_row row ++ ")" |})
         | Raise e => Raise e
         end |}.

Definition retrieve_plain : RetrieveModelView.t :=
  RetrieveModelView.__init__ CollectionOut None None.

Definition retrieve_tagged : RetrieveModelView.t :=
  RetrieveModelView.__init__ CollectionOut None
    (Some [tag "first"; tag "second"]).

Definition retrieve_only_jazz : RetrieveModelView.t :=
  RetrieveModelView.__init__ CollectionOut
    (Some (fun _ => Ok (table "Collection" [jazz]))) None.

Definition view (v : RetrieveModelView.t) : value :=
  VView (RetrieveModelView.as_view spec_utils v).

(** [[
class CollectionViewSet(ModelViewSet):
    model_class = Collection
    retrieve = RetrieveModelView(output_schema=CollectionOut)
    detail = RetrieveModelView(output_schema=CollectionOut, decorators=[...])
]] *)
Definition CollectionViewSet_attrs : namespace :=
  [ ("model_class", VModelClass Collection);
    ("retrieve", view retrieve_plain);
    ("detail", view retrieve_tagged) ].

Definition CollectionViewSet : pyclass :=
  {| cls_id := 10; __name__ := "CollectionViewSet";
     __dict__ := CollectionViewSet_attrs;
     __bases__ := [ModelViewSet.cls];
     mro_tail := [ModelViewSet.cls; object_] |}.

(** [[
class ItemViewSet(CollectionViewSet):
    model_class = Item
]] *)
Definition ItemViewSet : pyclass :=
  {| cls_id := 11; __name__ := "ItemViewSet";
     __dict__ := [("model_class", VModelClass Item)];
     __bases__ := [CollectionViewSet];
     mro_tail := [CollectionViewSet; ModelViewSet.cls; object_] |}.

(** A subclass that takes the name of its base and sets no [model_class]:
[[
class ModelViewSet(ninja_crud.views.ModelViewSet):
    retrieve = RetrieveModelView(output_schema=CollectionOut)
]] *)
Definition ProjectViewSet_attrs : namespace :=
  [ ("retrieve", view retrieve_plain) ].

Definition ProjectViewSet : pyclass :=
  {| cls_id := 12; __name__ := "ModelViewSet";
     __dict__ := ProjectViewSet_attrs;
     __bases__ := [ModelViewSet.cls];
     mro_tail := [ModelViewSet.cls; object_] |}.

(** [[
class ArchiveViewSet(CollectionViewSet):
    pass
]] *)
Definition ArchiveViewSet : pyclass :=
  {| cls_id := 13; __name__ := "ArchiveViewSet"; __dict__ := [];
     __bases__ := [CollectionViewSet];
     mro_tail := [CollectionViewSet; ModelViewSet.cls; object_] |}.

(** [[
class DetailOnlyViewSet(CollectionViewSet):
    retrieve = None
]] *)
Definition DetailOnlyViewSet : pyclass :=
  {| cls_id := 14; __name__ := "DetailOnlyViewSet";
     __dict__ := [("retrieve", VNone)];
     __bases__ := [CollectionViewSet];
     mro_tail := [CollectionViewSet; ModelViewSet.cls; object_] |}.

End TestApp.

(** * Properties *)

(** ** The order of names *)

Lemma str_lt_irrefl (a : string) : ~ str_lt a a.
Proof. exact (StrictOrder_Irreflexive a). Qed.

Lemma str_lt_trans (a b c : string) : str_lt a b -> str_lt b c -> str_lt a c.
Proof. exact (StrictOrder_Transitive a b c). Qed.

Lemma str_leb_true (a b : string) :
  str_leb a b = true <-> a = b \/ str_lt a b.
Proof.
  unfold str_leb.
  destruct (String_as_OT.compare_spec a b) as [E | L | G]; split; intros H;
    auto; try discriminate.
  exfalso. destruct H as [-> | H].
  - exact (str_lt_irrefl _ G).
  - exact (str_lt_irrefl _ (str_lt_trans _ _ _ H G)).
Qed.

Lemma str_leb_false (a b : string) : str_leb a b = false -> str_lt b a.
Proof.
  unfold str_leb.
  destruct (String_as_OT.compare_spec a b) as [E | L | G]; intros H;
    try discriminate. exact G.
Qed.

Lemma insert_sorted_perm (x : string) (l : list string) :
  Permutation (x :: l) (insert_sorted x l).
Proof.
  induction l as [| y l IH]; simpl.
  - apply Permutation_refl.
  - destruct (str_leb x y).
    + apply Permutation_refl.
    + eapply perm_trans; [apply perm_swap |].
      apply perm_skip, IH.
Qed.

Lemma sorted_perm (l : list string) : Permutation l (sorted l).
Proof.
  induction l as [| x l IH]; simpl.
  - constructor.
  - eapply perm_trans; [apply perm_skip, IH |]. apply insert_sorted_perm.
Qed.

Lemma insert_sorted_lt (x : string) (l : list string) :
  ~ In x l -> StronglySorted str_lt l ->
  StronglySorted str_lt (insert_sorted x l).
Proof.
  induction l as [| y l IH]; simpl; intros Hx Hs.
  - constructor; constructor.
  - inversion Hs as [| ? ? Hl Hy]; subst.
    destruct (str_leb x y) eqn:E.
    + apply str_leb_true in E. destruct E as [-> | E]; [tauto |].
      constructor; [exact Hs |].
      constructor; [exact E |].
      rewrite Forall_forall in *. intros z Hz.
      eapply str_lt_trans; [exact E | auto].
    + apply str_leb_false in E.
      constructor.
      * apply IH; [tauto | exact Hl].
      * rewrite Forall_forall in *. intros z Hz.
        apply (Permutation_in _
                 (Permutation_sym (insert_sorted_perm x l))) in Hz.
        destruct Hz as [<- | Hz]; auto.
Qed.

Lemma sorted_lt (l : list string) :
  NoDup l -> StronglySorted str_lt (sorted l).
Proof.
  induction 1 as [| x l Hx Hn IH]; simpl.
  - constructor.
  - apply insert_sorted_lt; [| exact IH].
    intros Hin. apply Hx.
    exact (Permutation_in _ (Permutation_sym (sorted_perm l)) Hin).
Qed.

(** ** Attribute access and [dir] *)

Lemma ns_lookup_none (name : string) (ns : namespace) :
  ns_lookup name ns = None <-> ~ In name (keys ns).
Proof.
  induction ns as [| [k v] ns IH]; simpl.
  - tauto.
  - destruct (String.eqb_spec name k) as [-> | N].
    + split; [discriminate | tauto].
    + rewrite IH. split; intros H; [| tauto].
      intros [E | I]; [congruence | tauto].
Qed.

Lemma mro_lookup_none (name : string) (classes : list pyclass) :
  mro_lookup name classes = None
  <-> ~ In name (flat_map (fun c => keys (__dict__ c)) classes).
Proof.
  induction classes as [| c classes IH]; simpl.
  - tauto.
  - rewrite in_app_iff.
    destruct (ns_lookup name (__dict__ c)) eqn:E.
    + split; [discriminate |]. intros H. exfalso. apply H. left.
      destruct (in_dec string_dec name (keys (__dict__ c))) as [I | N];
        [exact I |].
      apply ns_lookup_none in N. congruence.
    + apply ns_lookup_none in E. rewrite IH. tauto.
Qed.

Lemma hasattr_getattr (cls : pyclass) (name : string) :
  hasattr cls name = true <-> exists v, getattr cls name = Ok v.
Proof.
  unfold hasattr, getattr.
  destruct (mro_lookup name (__mro__ cls)) as [v |].
  - split; [eauto | reflexivity].
  - split; [discriminate | intros [v H]; discriminate].
Qed.

Lemma getattr_lookup (cls : pyclass) (name : string) (v : value) :
  getattr cls name = Ok v <-> mro_lookup name (__mro__ cls) = Some v.
Proof.
  unfold getattr. destruct (mro_lookup name (__mro__ cls)).
  - split; congruence.
  - split; discriminate.
Qed.

Lemma dir_In (cls : pyclass) (name : string) :
  In name (dir cls) <-> hasattr cls name = true.
Proof.
  unfold dir, hasattr.
  pose proof (mro_lookup_none name (__mro__ cls)) as N.
  split.
  - intros H.
    apply (Permutation_in _ (Permutation_sym (sorted_perm _))) in H.
    apply nodup_In in H.
    destruct (mro_lookup name (__mro__ cls)); [reflexivity |].
    exfalso. apply (proj1 N); auto.
  - intros H.
    apply (Permutation_in _ (sorted_perm _)). apply nodup_In.
    destruct (in_dec string_dec name
                (flat_map (fun c => keys (__dict__ c)) (__mro__ cls)))
      as [I | NI]; [exact I |].
    apply N in NI. rewrite NI in H. discriminate.
Qed.

Lemma dir_sorted (cls : pyclass) : StronglySorted str_lt (dir cls).
Proof. apply sorted_lt, NoDup_nodup. Qed.

Lemma dir_NoDup (cls : pyclass) : NoDup (dir cls).
Proof.
  unfold dir.
  eapply Permutation_NoDup; [apply sorted_perm | apply NoDup_nodup].
Qed.

Lemma views_among_names (cls : pyclass) (names : list string) :
  map fst (views_among cls names) = filter (holds_view cls) names.
Proof.
  unfold views_among, holds_view.
  induction names as [| n names IH]; [reflexivity |].
  cbn [flat_map filter]. rewrite map_app, IH.
  destruct (mro_lookup n (__mro__ cls)) as [[] |]; reflexivity.
Qed.

Lemma views_among_In (cls : pyclass) (names : list string) n v :
  In (n, v) (views_among cls names)
  <-> In n names /\ getattr cls n = Ok (VView v).
Proof.
  unfold views_among. rewrite in_flat_map. split.
  - intros [x [Hx H]]. rewrite getattr_lookup.
    destruct (mro_lookup x (__mro__ cls)) as [[] |] eqn:E; simpl in H;
      try tauto.
    destruct H as [H | []]. inversion H; subst. auto.
  - intros [Hn H]. apply getattr_lookup in H. exists n. split; [exact Hn |].
    rewrite H. left. reflexivity.
Qed.

Lemma StronglySorted_filter {A} (R : A -> A -> Prop) (f : A -> bool) l :
  StronglySorted R l -> StronglySorted R (filter f l).
Proof.
  induction 1 as [| x l Hs IH Hx]; simpl; [constructor |].
  destruct (f x); [| exact IH].
  constructor; [exact IH |].
  rewrite Forall_forall in *. intros y Hy. apply filter_In in Hy. apply Hx, Hy.
Qed.

Lemma for_attr_name_views (cls : pyclass) (m : DjangoModel)
  (names : list string) :
  getattr cls "model_class" = Ok (VModelClass m) ->
  Forall (fun n => hasattr cls n = true) names ->
  forall router,
    ModelViewSet.for_attr_name cls names router
    = Ok (register_each m (views_among cls names) router).
Proof.
  intros Hm. induction 1 as [| n names Hn Hall IH]; intros router.
  - reflexivity.
  - unfold hasattr in Hn.
    cbn [ModelViewSet.for_attr_name views_among flat_map].
    unfold getattr at 1.
    destruct (mro_lookup n (__mro__ cls)) as [v |] eqn:E; [| discriminate].
    cbn [bind]. unfold register_each. rewrite fold_left_app.
    destruct v; cbn [isinstance_AbstractModelView app fold_left];
      try apply IH.
    rewrite Hm. cbn [bind ModelViewSet.call_register_route snd]. apply IH.
Qed.

(** ** Validation and the registration loop *)

Lemma validate_model_class_ok (cls : pyclass) :
  ModelViewSetMeta.validate_model_class cls = Ok tt
  <-> exists m, getattr cls "model_class" = Ok (VModelClass m).
Proof.
  unfold ModelViewSetMeta.validate_model_class, hasattr, getattr.
  destruct (mro_lookup "model_class" (__mro__ cls)) as [v |]; cbn [negb bind].
  - destruct v; cbn; split; intros H; try discriminate;
      try (destruct H as [m H]; discriminate); eauto.
  - split; [discriminate | intros [m H]; discriminate].
Qed.

Lemma register_routes_views (cls : pyclass) (m : DjangoModel)
  (router : Router) :
  getattr cls "model_class" = Ok (VModelClass m) ->
  ModelViewSet.register_routes cls router
  = Ok (register_each m (view_attributes cls) router).
Proof.
  intros Hm. unfold ModelViewSet.register_routes.
  apply (for_attr_name_views cls m (dir cls) Hm).
  apply Forall_forall. intros n. apply dir_In.
Qed.

Lemma view_attributes_In (cls : pyclass) n v :
  In (n, v) (view_attributes cls) <-> getattr cls n = Ok (VView v).
Proof.
  unfold view_attributes. rewrite views_among_In. split; [tauto |].
  intros H. split; [| exact H].
  apply dir_In, hasattr_getattr. eauto.
Qed.

Lemma view_attributes_names (cls : pyclass) :
  map fst (view_attributes cls) = filter (holds_view cls) (dir cls).
Proof. apply views_among_names. Qed.

Lemma view_attributes_NoDup (cls : pyclass) :
  NoDup (map fst (view_attributes cls)).
Proof. rewrite view_attributes_names. apply NoDup_filter, dir_NoDup. Qed.

Lemma view_attributes_sorted (cls : pyclass) :
  StronglySorted str_lt (map fst (view_attributes cls)).
Proof.
  rewrite view_attributes_names. apply StronglySorted_filter, dir_sorted.
Qed.

Lemma sorted_unique (l1 l2 : list string) :
  StronglySorted str_lt l1 -> StronglySorted str_lt l2 ->
  (forall x, In x l1 <-> In x l2) -> l1 = l2.
Proof.
  intros H1. revert l2.
  induction H1 as [| x l1 Hs1 IH Hx]; intros l2 H2 Heq.
  - destruct l2 as [| y l2]; [reflexivity |].
    exfalso. apply (proj2 (Heq y)). left. reflexivity.
  - destruct H2 as [| y l2 Hs2 Hy].
    + exfalso. apply (proj1 (Heq x)). left. reflexivity.
    + rewrite Forall_forall in Hx, Hy.
      assert (E : x = y).
      { destruct (proj1 (Heq x) (or_introl eq_refl)) as [E | I]; [auto |].
        destruct (proj2 (Heq y) (or_introl eq_refl)) as [E | I']; [auto |].
        exfalso. apply (str_lt_irrefl x).
        eapply str_lt_trans; [apply Hx, I' | apply Hy, I]. }
      subst y. f_equal. apply IH; [exact Hs2 |].
      intros z. split; intros Hz.
      * destruct (proj1 (Heq z) (or_intror Hz)) as [E | I]; [| exact I].
        subst z. exfalso. exact (str_lt_irrefl x (Hx x Hz)).
      * destruct (proj2 (Heq z) (or_intror Hz)) as [E | I]; [| exact I].
        subst z. exfalso. exact (str_lt_irrefl x (Hy x Hz)).
Qed.

Lemma dir_ext (cls cls' : pyclass) :
  (forall n, hasattr cls' n = hasattr cls n) -> dir cls' = dir cls.
Proof.
  intros H. apply sorted_unique; try apply dir_sorted.
  intros n. rewrite !dir_In, H. tauto.
Qed.

Lemma view_attributes_ext (cls cls' : pyclass) :
  (forall n, mro_lookup n (__mro__ cls') = mro_lookup n (__mro__ cls)) ->
  view_attributes cls' = view_attributes cls.
Proof.
  intros H. unfold view_attributes, views_among.
  rewrite (dir_ext cls cls').
  - apply flat_map_ext. intros n. rewrite H. reflexivity.
  - intros n. unfold hasattr. rewrite H. reflexivity.
Qed.

Lemma ns_lookup_In (name : string) (v : value) (ns : namespace) :
  NoDup (keys ns) -> (ns_lookup name ns = Some v <-> In (name, v) ns).
Proof.
  induction ns as [| [k w] ns IH]; cbn [keys map fst ns_lookup]; intros Hn.
  - split; [discriminate | intros []].
  - inversion Hn as [| ? ? Hk Hn']; subst.
    destruct (String.eqb_spec name k) as [-> | N].
    + split.
      * intros E. inversion E. left. reflexivity.
      * intros [E | I]; [inversion E; reflexivity |].
        exfalso. apply Hk. apply (in_map fst) in I. exact I.
    + rewrite (IH Hn'). split; [intros I; right; exact I |].
      intros [E | I]; [inversion E; congruence | exact I].
Qed.

Lemma ns_lookup_perm (name : string) (ns ns' : namespace) :
  NoDup (keys ns) -> Permutation ns ns' ->
  ns_lookup name ns' = ns_lookup name ns.
Proof.
  intros Hn Hp.
  assert (Hn' : NoDup (keys ns'))
    by (eapply Permutation_NoDup; [apply Permutation_map, Hp | exact Hn]).
  destruct (ns_lookup name ns) as [v |] eqn:E.
  - apply ns_lookup_In; [exact Hn' |].
    apply (Permutation_in _ Hp). apply ns_lookup_In; assumption.
  - destruct (ns_lookup name ns') as [v |] eqn:E'; [| reflexivity].
    apply ns_lookup_In in E'; [| exact Hn'].
    apply (Permutation_in _ (Permutation_sym Hp)) in E'.
    apply ns_lookup_In in E'; [congruence | exact Hn].
Qed.

(** ** Class creation *)

Lemma existsb_class_is_false (c : pyclass) (classes : list pyclass) :
  ~ In (cls_id c) (map cls_id classes) -> existsb (class_is c) classes = false.
Proof.
  induction classes as [| d classes IH]; cbn [existsb map]; intros H.
  - reflexivity.
  - rewrite IH by (intros I; apply H; right; exact I).
    unfold class_is. destruct (Pos.eqb_spec (cls_id c) (cls_id d)) as [E | N].
    + exfalso. apply H. left. symmetry. exact E.
    + reflexivity.
Qed.

Lemma class_is_refl (c : pyclass) : class_is c c = true.
Proof. apply Pos.eqb_refl. Qed.

Lemma merge_single (classes : list pyclass) (fuel : nat) :
  distinct_ids classes -> (length classes < fuel)%nat ->
  merge fuel [classes] = Some classes.
Proof.
  revert fuel. induction classes as [| c rest IH]; intros fuel Hd Hf.
  - destruct fuel; [lia | reflexivity].
  - destruct fuel as [| fuel]; [cbn in Hf; lia |].
    inversion Hd as [| ? ? Hc Hrest]; subst.
    cbn [merge filter nonempty find_candidate existsb in_tail].
    rewrite (existsb_class_is_false c rest Hc). cbn [orb map drop_head].
    rewrite class_is_refl, IH; [reflexivity | exact Hrest |].
    cbn [length] in Hf. lia.
Qed.

(** With one base, [__mro__] is the class followed by the [__mro__] of the
    base. *)
Lemma single_base_mro (oid : positive) (name : string) (base : pyclass)
  (attrs : namespace) :
  distinct_ids (__mro__ base) ->
  type_new oid name [base] attrs
  = Ok {| cls_id := oid; __name__ := name; __dict__ := attrs;
          __bases__ := [base]; mro_tail := __mro__ base |}.
Proof.
  intros Hd. unfold type_new, mro_merge.
  cbn [map app total_length fold_right].
  set (fuel := (length (__mro__ base) + (length [base] + 0))%nat).
  unfold __mro__ in *. inversion Hd as [| ? ? Hb Hrest]; subst.
  cbn [merge filter nonempty find_candidate existsb in_tail].
  rewrite (existsb_class_is_false base (mro_tail base) Hb).
  cbn [orb map drop_head]. rewrite class_is_refl.
  destruct (mro_tail base) as [| c rest] eqn:E.
  - subst fuel. cbn. reflexivity.
  - assert (Hm : merge fuel [c :: rest; []] = merge fuel [c :: rest]).
    { destruct fuel; reflexivity. }
    rewrite Hm, merge_single; [reflexivity | exact Hrest |].
    subst fuel. cbn [length]. lia.
Qed.

(** The class objects of the test application are what the metaclass
    returns for their class statements. *)
Lemma ModelViewSet_created :
  ModelViewSetMeta.__new__ 2 "ModelViewSet" [] ModelViewSet.attrs
  = Ok ModelViewSet.cls.
Proof. reflexivity. Qed.

Lemma CollectionViewSet_created :
  ModelViewSetMeta.__new__ 10 "CollectionViewSet" [ModelViewSet.cls]
    TestApp.CollectionViewSet_attrs
  = Ok TestApp.CollectionViewSet.
Proof. reflexivity. Qed.

Lemma ItemViewSet_created :
  ModelViewSetMeta.__new__ 11 "ItemViewSet" [TestApp.CollectionViewSet]
    [("model_class", VModelClass TestApp.Item)]
  = Ok TestApp.ItemViewSet.
Proof. reflexivity. Qed.

Lemma ProjectViewSet_created :
  ModelViewSetMeta.__new__ 12 "ModelViewSet" [ModelViewSet.cls]
    TestApp.ProjectViewSet_attrs
  = Ok TestApp.ProjectViewSet.
Proof. reflexivity. Qed.

Lemma validate_model_class_invalid (cls : pyclass) :
  hasattr cls "model_class" = false
  \/ (exists v, getattr cls "model_class" = Ok v
                /\ isinstance_type v && issubclass_Model v = false) ->
  exists msg,
    ModelViewSetMeta.validate_model_class cls = Raise (ValueError msg).
Proof.
  unfold ModelViewSetMeta.validate_model_class.
  intros [H | [v [Hv Hbad]]].
  - rewrite H. cbn [negb]. eauto.
  - assert (Hh : hasattr cls "model_class" = true)
      by (apply hasattr_getattr; eauto).
    rewrite Hh, Hv. cbn [negb bind].
    rewrite <- negb_andb, Hbad. cbn [negb]. eauto.
Qed.

(** A class whose [model_class] is a subclass of [Model] is created,
    whatever its name. *)
Theorem valid_class_is_created
  (oid : positive) (name : string) (bases : list pyclass) (attrs : namespace)
  (new_cls : pyclass) (model_class : DjangoModel) :
  type_new oid name bases attrs = Ok new_cls ->
  getattr new_cls "model_class" = Ok (VModelClass model_class) ->
  ModelViewSetMeta.__new__ oid name bases attrs = Ok new_cls.
Proof.
  intros Hnew Hm. unfold ModelViewSetMeta.__new__. rewrite Hnew. cbn [bind].
  destruct (negb (name =? "ModelViewSet")); [| reflexivity].
  rewrite (proj2 (validate_model_class_ok new_cls)) by eauto. reflexivity.
Qed.

(** [ItemViewSet] is created. *)
Lemma valid_class_is_created_witness :
  ModelViewSetMeta.__new__ 11 "ItemViewSet" [TestApp.CollectionViewSet]
    [("model_class", VModelClass TestApp.Item)]
  = Ok TestApp.ItemViewSet.
Proof.
  apply (valid_class_is_created 11 "ItemViewSet" [TestApp.CollectionViewSet]
           [("model_class", VModelClass TestApp.Item)] TestApp.ItemViewSet
           TestApp.Item); reflexivity.
Defined.

(** C1. A class created through the metaclass under a name other than
    [ModelViewSet] that has no [model_class] attribute, or whose
    [model_class] is not a type that is a subclass of [Model], is not
    created: [__new__] raises a [ValueError] and returns no class, so there
    is nothing to instantiate. *)
Theorem invalid_model_class_fails_class_creation
  (oid : positive) (name : string) (bases : list pyclass) (attrs : namespace)
  (new_cls : pyclass) :
  name <> "ModelViewSet" ->
  type_new oid name bases attrs = Ok new_cls ->
  hasattr new_cls "model_class" = false
  \/ (exists v, getattr new_cls "model_class" = Ok v
                /\ isinstance_type v && issubclass_Model v = false) ->
  (exists msg,
     ModelViewSetMeta.__new__ oid name bases attrs = Raise (ValueError msg))
  /\ forall cls, ModelViewSetMeta.__new__ oid name bases attrs <> Ok cls.
Proof.
  intros Hname Hnew Hbad.
  destruct (validate_model_class_invalid new_cls Hbad) as [msg Hmsg].
  assert (E : ModelViewSetMeta.__new__ oid name bases attrs
              = Raise (ValueError msg)).
  { unfold ModelViewSetMeta.__new__. rewrite Hnew. cbn [bind].
    apply String.eqb_neq in Hname. rewrite Hname. cbn [negb].
    rewrite Hmsg. reflexivity. }
  split; [eauto |]. intros cls. rewrite E. discriminate.
Qed.

(** C1 on a class body that binds [model_class] to a string. *)
Lemma invalid_model_class_fails_class_creation_witness :
  (exists msg,
     ModelViewSetMeta.__new__ 20 "BrokenViewSet" [ModelViewSet.cls]
       [("model_class", VStr "Collection")] = Raise (ValueError msg))
  /\ forall cls,
       ModelViewSetMeta.__new__ 20 "BrokenViewSet" [ModelViewSet.cls]
         [("model_class", VStr "Collection")] <> Ok cls.
Proof.
  eapply invalid_model_class_fails_class_creation.
  - discriminate.
  - reflexivity.
  - right. eexists. split; reflexivity.
Defined.

(** C9. Whether [__new__] validates is decided by the name alone. Under
    the name [ModelViewSet] the outcome is that of [type.__new__], whatever
    [model_class] is; under any other name the new class is validated
    first. A subclass of [ModelViewSet] that is given the name
    [ModelViewSet] is therefore created although it has no [model_class]. *)
Theorem validation_is_decided_by_the_name
  (oid : positive) (name : string) (bases : list pyclass) (attrs : namespace) :
  (name = "ModelViewSet" ->
     ModelViewSetMeta.__new__ oid name bases attrs
     = type_new oid name bases attrs)
  /\ (name <> "ModelViewSet" ->
        ModelViewSetMeta.__new__ oid name bases attrs
        = (new_cls <- type_new oid name bases attrs ;;
           ModelViewSetMeta.validate_model_class new_cls ;;;
           Ok new_cls))
  /\ (ModelViewSetMeta.__new__ 12 "ModelViewSet" [ModelViewSet.cls]
        TestApp.ProjectViewSet_attrs = Ok TestApp.ProjectViewSet
      /\ issubclass TestApp.ProjectViewSet ModelViewSet.cls = true
      /\ class_is TestApp.ProjectViewSet ModelViewSet.cls = false
      /\ hasattr TestApp.ProjectViewSet "model_class" = false).
Proof.
  unfold ModelViewSetMeta.__new__. repeat split.
  - intros ->. cbn [String.eqb Ascii.eqb negb].
    destruct (type_new oid "ModelViewSet" bases attrs); reflexivity.
  - intros Hname. apply String.eqb_neq in Hname. rewrite Hname. reflexivity.
Qed.

(** ** The Retrieve view *)

Lemma retrieve_registers_one_route (utils : Utils)
  (self : RetrieveModelView.t) :
  registers_one_route (RetrieveModelView.as_view utils self).
Proof.
  exists (fun model_class =>
    {| rc_verb := GET;
       rc_kwargs :=
         [ ("path", KStr (RetrieveModelView.get_path self));
           ("response", KSchema (RetrieveModelView.output_schema self));
           ("operation_id",
             KStr ("retrieve_"
                     ++ to_snake_case utils (model_name model_class)));
           ("summary", KStr ("Retrieve " ++ model_name model_class)) ];
       rc_view_func :=
         merge_decorators utils (RetrieveModelView.decorators self)
           (RetrieveModelView.retrieve_model utils self model_class) |}).
  reflexivity.
Qed.

(** C3. [register_route] of a Retrieve view makes exactly one registration
    call on the router: verb GET, path [get_path()], which is "/{id}",
    response the output schema, operation id "retrieve_" followed by the
    snake-cased model name and summary "Retrieve " followed by the model
    name. Two model classes of the same name give the same keyword
    arguments. *)
Theorem retrieve_register_route_one_get
  (utils : Utils) (self : RetrieveModelView.t) (router : Router)
  (model_class : DjangoModel) :
  exists view_func,
    RetrieveModelView.register_route utils self router model_class
    = router ++
      [ {| rc_verb := GET;
           rc_kwargs :=
             [ ("path", KStr "/{id}");
               ("response", KSchema (RetrieveModelView.output_schema self));
               ("operation_id",
                 KStr ("retrieve_"
                         ++ to_snake_case utils (model_name model_class)));
               ("summary", KStr ("Retrieve " ++ model_name model_class)) ];
           rc_view_func := view_func |} ]
    /\ RetrieveModelView.get_path self = "/{id}"
    /\ forall other : DjangoModel,
         model_name other = model_name model_class ->
         map rc_kwargs
           (RetrieveModelView.register_route utils self router other)
         = map rc_kwargs
             (RetrieveModelView.register_route utils self router model_class).
Proof.
  eexists. split; [reflexivity |]. split; [reflexivity |].
  intros other Hname.
  unfold RetrieveModelView.register_route, router_get, router_api_operation.
  rewrite !map_app. cbn [map rc_kwargs]. rewrite Hname. reflexivity.
Qed.

(** C4. Without a [queryset_getter], [get_queryset] returns the queryset of
    the model's default manager; with one, it returns what the getter
    returns for the identifier. *)
Theorem get_queryset_default_or_getter
  (output_schema : Schema) (decorators : option (list Decorator))
  (model_class : DjangoModel) (id : pyany) :
  RetrieveModelView.get_queryset
    (RetrieveModelView.__init__ output_schema None decorators) model_class id
  = Ok (objects_get_queryset model_class)
  /\ forall queryset_getter,
       RetrieveModelView.get_queryset
         (RetrieveModelView.__init__ output_schema (Some queryset_getter)
            decorators) model_class id
       = queryset_getter id.
Proof. split; [| intros getter]; reflexivity. Qed.



Lemma merge_decorators_spec_wraps (decorators : list Decorator)
  (handler : ViewFunc) :
  merge_decorators_spec decorators handler = wrapped_by_each decorators handler.
Proof.
  unfold merge_decorators_spec. revert handler.
  induction decorators as [| d rest IH]; intros handler; cbn; auto.
Qed.

Lemma wrapped_by_each_last (decorators : list Decorator) (d : Decorator)
  (handler : ViewFunc) :
  wrapped_by_each (decorators ++ [d]) handler
  = d (wrapped_by_each decorators handler).
Proof.
  revert handler. induction decorators as [| d' rest IH]; intros handler.
  - reflexivity.
  - cbn [app wrapped_by_each]. apply IH.
Qed.

(** C6. With [merge_decorators] as the spec describes it, the function a
    view built with a list of decorators registers is its handler wrapped
    by each decorator of the list in turn, in the order of the list. *)
Theorem decorators_wrap_in_declared_order
  (utils : Utils) (output_schema : Schema)
  (queryset_getter : option (pyany -> result QuerySet))
  (decorators : list Decorator) (router : Router) (model_class : DjangoModel) :
  (forall ds f, merge_decorators utils ds f = merge_decorators_spec ds f) ->
  let self :=
    RetrieveModelView.__init__ output_schema queryset_getter (Some decorators)
  in
  exists route,
    RetrieveModelView.register_route utils self router model_class
    = router ++ [route]
    /\ rc_view_func route
       = wrapped_by_each decorators
           (RetrieveModelView.retrieve_model utils self model_class).
Proof.
  intros Hmerge self. eexists. split; [reflexivity |].
  cbn [rc_view_func]. rewrite Hmerge. apply merge_decorators_spec_wraps.
Qed.

(** C6 on a view declared with [decorators=[tag("first"), tag("second")]]. *)
Lemma decorators_wrap_in_declared_order_witness :
  exists route,
    RetrieveModelView.register_route spec_utils TestApp.retrieve_tagged []
      TestApp.Collection = [] ++ [route]
    /\ rc_view_func route
       = wrapped_by_each [TestApp.tag "first"; TestApp.tag "second"]
           (RetrieveModelView.retrieve_model spec_utils TestApp.retrieve_tagged
              TestApp.Collection).
Proof.
  apply (decorators_wrap_in_declared_order spec_utils TestApp.CollectionOut
           None [TestApp.tag "first"; TestApp.tag "second"] []
           TestApp.Collection).
  reflexivity.
Defined.

(** The handler registered for that view, called with key 1, answers the
    row marked by [first] and then by [second]. *)
Example tagged_retrieve_runs_first_then_second :
  match RetrieveModelView.register_route spec_utils TestApp.retrieve_tagged []
          TestApp.Collection with
  | [route] =>
      option_map (fun r => inst_row (snd r))
        (match call (rc_view_func route) TestApp.request (PInt 1) with
         | Ok r => Some r
         | Raise _ => None
         end)
  | _ => None
  end = Some "second(first(rock))".
Proof. reflexivity. Qed.

(** ** Registration of a view set *)

Lemma view_attributes_isinstance (cls : pyclass) (name : string) (v : value) :
  getattr cls name = Ok v ->
  (In name (map fst (view_attributes cls))
   <-> isinstance_AbstractModelView v = true).
Proof.
  intros Hv. rewrite view_attributes_names, filter_In, dir_In.
  unfold holds_view. rewrite (proj1 (getattr_lookup cls name v) Hv).
  split; [tauto |]. intros H. split; [| exact H].
  apply hasattr_getattr. eauto.
Qed.

(** On a class whose [model_class] passes the check of the metaclass, and
    with views whose [register_route] returns, as the views here are
    modelled, [register_routes(router)] calls
    [register_route(router, cls.model_class)] once for every attribute that
    holds an instance of [AbstractModelView] and for no other attribute. *)
Theorem validated_class_registers_each_view_once
  (cls : pyclass) (router : Router) :
  ModelViewSetMeta.validate_model_class cls = Ok tt ->
  registers_each_view_once cls router.
Proof.
  intros Hvalid. apply validate_model_class_ok in Hvalid.
  destruct Hvalid as [m Hm]. exists m.
  split; [exact Hm |].
  split; [apply register_routes_views, Hm |].
  split; [apply view_attributes_NoDup |].
  split; [apply view_attributes_In | apply view_attributes_isinstance].
Qed.

(** So it is on [CollectionViewSet]. *)
Lemma validated_class_registers_each_view_once_witness :
  registers_each_view_once TestApp.CollectionViewSet [].
Proof.
  apply validated_class_registers_each_view_once. reflexivity.
Defined.

(** C2. The code does not do what the claim says on a subclass of
    [ModelViewSet] that bears the name [ModelViewSet] and sets no
    [model_class]. The metaclass, which is to ensure "that any subclass of
    ModelViewSet has a proper model_class attribute", tests the name and
    creates the class although [validate_model_class] rejects it; the class
    holds a view, and [register_routes] raises [AttributeError] at
    [cls.model_class] before any view is asked to register. *)
Lemma renamed_subclass_registers_no_view :
  ModelViewSetMeta.__new__ 12 "ModelViewSet" [ModelViewSet.cls]
    [("retrieve", TestApp.view TestApp.retrieve_plain)]
  = Ok TestApp.ProjectViewSet
  /\ issubclass TestApp.ProjectViewSet ModelViewSet.cls = true
  /\ getattr TestApp.ProjectViewSet "retrieve"
     = Ok (TestApp.view TestApp.retrieve_plain)
  /\ ModelViewSetMeta.validate_model_class TestApp.ProjectViewSet
     = Raise (ValueError "ModelViewSet.model_class class attribute must be set")
  /\ ModelViewSet.register_routes TestApp.ProjectViewSet []
     = Raise (AttributeError
         "type object 'ModelViewSet' has no attribute 'model_class'")
  /\ ~ registers_each_view_once TestApp.ProjectViewSet [].
Proof.
  repeat split.
  intros [m [Hm _]]. discriminate Hm.
Qed.

Lemma register_each_routes (m : DjangoModel)
  (calls : list (string * AbstractModelView.t)) :
  Forall registers_one_route (map snd calls) ->
  exists routes,
    length routes = length calls
    /\ forall router, register_each m calls router = router ++ routes.
Proof.
  induction calls as [| [n v] calls IH]; cbn [map snd]; intros Hall.
  - exists []. split; [reflexivity |]. intros router. cbn.
    rewrite app_nil_r. reflexivity.
  - inversion Hall as [| ? ? [route Hv] Hrest]; subst.
    destruct (IH Hrest) as [routes [Hlen Hroutes]].
    exists (route m :: routes). split; [cbn; congruence |].
    intros router. unfold register_each in *. cbn [fold_left snd].
    rewrite Hroutes, Hv, <- app_assoc. reflexivity.
Qed.

(** On a class whose [model_class] passes the check of the metaclass and
    that holds at least one view, with views whose [register_route]
    returns, a second [register_routes] on the same router makes the calls
    of the first once more; with views that register one route each, every
    route is on the router twice. Nothing detects the repetition. *)
Theorem validated_class_registers_twice (cls : pyclass) (router : Router) :
  ModelViewSetMeta.validate_model_class cls = Ok tt ->
  view_attributes cls <> [] ->
  registers_twice cls router.
Proof.
  intros Hvalid Hviews. apply validate_model_class_ok in Hvalid.
  destruct Hvalid as [m Hm].
  exists m, (register_each m (view_attributes cls) router),
    (register_each m (view_attributes cls)
       (register_each m (view_attributes cls) router)).
  split; [exact Hm |].
  split; [apply register_routes_views, Hm |].
  split; [apply register_routes_views, Hm |].
  split; [reflexivity |]. split; [reflexivity |].
  intros Hone.
  destruct (register_each_routes m _ Hone) as [routes [Hlen Hroutes]].
  exists routes. split; [exact Hlen |]. split.
  - intros ->. destruct (view_attributes cls); [congruence | discriminate].
  - split; [apply Hroutes |]. rewrite !Hroutes, <- app_assoc. reflexivity.
Qed.

(** So it is on [CollectionViewSet]. *)
Lemma validated_class_registers_twice_witness :
  registers_twice TestApp.CollectionViewSet [].
Proof.
  apply validated_class_registers_twice; [reflexivity | discriminate].
Defined.

(** C8. The code does not do what the claim says on the same class, which
    the name test of the metaclass lets through against its docstring: the
    subclass named [ModelViewSet] without [model_class] holds a view, and
    every [register_routes] on it raises [AttributeError], so no route is
    registered, once or twice. *)
Lemma renamed_subclass_registers_nothing_twice :
  ModelViewSetMeta.__new__ 12 "ModelViewSet" [ModelViewSet.cls]
    [("retrieve", TestApp.view TestApp.retrieve_plain)]
  = Ok TestApp.ProjectViewSet
  /\ issubclass TestApp.ProjectViewSet ModelViewSet.cls = true
  /\ map fst (view_attributes TestApp.ProjectViewSet) = ["retrieve"]
  /\ ModelViewSetMeta.validate_model_class TestApp.ProjectViewSet
     = Raise (ValueError "ModelViewSet.model_class class attribute must be set")
  /\ (forall router,
        ModelViewSet.register_routes TestApp.ProjectViewSet router
        = Raise (AttributeError
            "type object 'ModelViewSet' has no attribute 'model_class'"))
  /\ ~ registers_twice TestApp.ProjectViewSet [].
Proof.
  repeat split.
  intros [m [r1 [r2 [Hm _]]]]. discriminate Hm.
Qed.

(** C10. [register_routes] goes through [dir(cls)]: the views are
    registered in the sorted order of their attribute names, whatever the
    order of the class body (two classes that bind the same names to the
    same values register alike), and a view bound in a base class and not
    rebound in the class is registered too, with the [model_class] of the
    class itself. *)
Theorem register_routes_goes_by_sorted_names
  (cls : pyclass) (router : Router) (model_class : DjangoModel) :
  getattr cls "model_class" = Ok (VModelClass model_class) ->
  ModelViewSet.register_routes cls router
  = Ok (register_each model_class (view_attributes cls) router)
  /\ StronglySorted str_lt (map fst (view_attributes cls))
  /\ (forall reordered : pyclass,
        (forall name,
           mro_lookup name (__mro__ reordered)
           = mro_lookup name (__mro__ cls)) ->
        view_attributes reordered = view_attributes cls)
  /\ (forall name view,
        ns_lookup name (__dict__ cls) = None ->
        mro_lookup name (mro_tail cls) = Some (VView view) ->
        In (name, view) (view_attributes cls)).
Proof.
  intros Hm.
  split; [apply register_routes_views, Hm |].
  split; [apply view_attributes_sorted |].
  split; [intros reordered; apply view_attributes_ext |].
  intros name view Hown Hbase. apply view_attributes_In, getattr_lookup.
  unfold __mro__. cbn [mro_lookup]. rewrite Hown. exact Hbase.
Qed.

(** C10 on [ItemViewSet], whose two views are bound in its base class. *)
Lemma register_routes_goes_by_sorted_names_witness :
  ModelViewSet.register_routes TestApp.ItemViewSet []
  = Ok (register_each TestApp.Item (view_attributes TestApp.ItemViewSet) [])
  /\ StronglySorted str_lt (map fst (view_attributes TestApp.ItemViewSet))
  /\ (forall reordered : pyclass,
        (forall name,
           mro_lookup name (__mro__ reordered)
           = mro_lookup name (__mro__ TestApp.ItemViewSet)) ->
        view_attributes reordered = view_attributes TestApp.ItemViewSet)
  /\ (forall name view,
        ns_lookup name (__dict__ TestApp.ItemViewSet) = None ->
        mro_lookup name (mro_tail TestApp.ItemViewSet) = Some (VView view) ->
        In (name, view) (view_attributes TestApp.ItemViewSet)).
Proof.
  apply (register_routes_goes_by_sorted_names TestApp.ItemViewSet []
           TestApp.Item).
  reflexivity.
Defined.

(** [CollectionViewSet] declares [retrieve] before [detail] and registers
    [detail] before [retrieve]. *)
Example CollectionViewSet_registers_detail_first :
  keys (__dict__ TestApp.CollectionViewSet)
  = ["model_class"; "retrieve"; "detail"]
  /\ map fst (view_attributes TestApp.CollectionViewSet)
     = ["detail"; "retrieve"].
Proof. split; reflexivity. Qed.

(** [ItemViewSet] binds no view itself; it registers the two views of its
    base class for its own model, [Item]. *)
Example ItemViewSet_registers_inherited_views :
  keys (__dict__ TestApp.ItemViewSet) = ["model_class"]
  /\ map fst (view_attributes TestApp.ItemViewSet) = ["detail"; "retrieve"]
  /\ match ModelViewSet.register_routes TestApp.ItemViewSet [] with
     | Ok router =>
         map (fun c => (rc_verb c, kw_lookup "operation_id" (rc_kwargs c)))
           router
     | Raise _ => []
     end
     = [ (GET, Some (KStr "retrieve_item"));
         (GET, Some (KStr "retrieve_item")) ].
Proof. repeat split. Qed.

(** Two routes after one [register_routes], four after two. *)
Example CollectionViewSet_twice :
  match ModelViewSet.register_routes TestApp.CollectionViewSet [] with
  | Ok router1 =>
      match ModelViewSet.register_routes TestApp.CollectionViewSet router1 with
      | Ok router2 => (length router1, length router2)
      | Raise _ => (0, 0)%nat
      end
  | Raise _ => (0, 0)%nat
  end = (2, 4)%nat.
Proof. reflexivity. Qed.

(** ** Classes without views, without [model_class], and reordered bodies *)

Lemma reordered_body_same_lookup (cls : pyclass) (attrs' : namespace) :
  NoDup (keys (__dict__ cls)) -> Permutation (__dict__ cls) attrs' ->
  forall name,
    mro_lookup name
      (__mro__ {| cls_id := cls_id cls; __name__ := __name__ cls;
                  __dict__ := attrs'; __bases__ := __bases__ cls;
                  mro_tail := mro_tail cls |})
    = mro_lookup name (__mro__ cls).
Proof.
  intros Hn Hp name. unfold __mro__. cbn [mro_lookup __dict__ mro_tail].
  rewrite (ns_lookup_perm name _ _ Hn Hp). reflexivity.
Qed.

Lemma getattr_ext (cls cls' : pyclass) :
  __name__ cls' = __name__ cls ->
  (forall name,
     mro_lookup name (__mro__ cls') = mro_lookup name (__mro__ cls)) ->
  forall name, getattr cls' name = getattr cls name.
Proof.
  intros Hname Hlook name. unfold getattr. rewrite Hlook, Hname. reflexivity.
Qed.

Lemma for_attr_name_ext (cls cls' : pyclass) :
  (forall name, getattr cls' name = getattr cls name) ->
  forall names router,
    ModelViewSet.for_attr_name cls' names router
    = ModelViewSet.for_attr_name cls names router.
Proof.
  intros Hget names.
  induction names as [| n names IH]; intros router; [reflexivity |].
  cbn [ModelViewSet.for_attr_name]. rewrite !Hget.
  destruct (getattr cls n) as [v | e]; [| reflexivity]. cbn [bind].
  destruct (isinstance_AbstractModelView v); [| apply IH].
  destruct (getattr cls "model_class") as [mc | e]; [| reflexivity].
  cbn [bind].
  destruct (ModelViewSet.call_register_route v router mc); [| reflexivity].
  cbn [bind]. apply IH.
Qed.

(** The order of the class body does not matter: a class with the same
    bindings in another order registers the same routes, or fails alike. *)
Theorem reordered_body_registers_alike (cls : pyclass) (attrs' : namespace)
  (router : Router) :
  NoDup (keys (__dict__ cls)) -> Permutation (__dict__ cls) attrs' ->
  ModelViewSet.register_routes
    {| cls_id := cls_id cls; __name__ := __name__ cls; __dict__ := attrs';
       __bases__ := __bases__ cls; mro_tail := mro_tail cls |} router
  = ModelViewSet.register_routes cls router.
Proof.
  intros Hn Hp.
  pose proof (reordered_body_same_lookup cls attrs' Hn Hp) as Hlook.
  unfold ModelViewSet.register_routes.
  rewrite (dir_ext cls)
    by (intros n; unfold hasattr; rewrite Hlook; reflexivity).
  apply for_attr_name_ext, getattr_ext; [reflexivity | exact Hlook].
Qed.

(** [CollectionViewSet] with its body in the opposite order. *)
Lemma reordered_body_registers_alike_witness :
  ModelViewSet.register_routes
    {| cls_id := 10; __name__ := "CollectionViewSet";
       __dict__ :=
         [ ("detail", TestApp.view TestApp.retrieve_tagged);
           ("retrieve", TestApp.view TestApp.retrieve_plain);
           ("model_class", VModelClass TestApp.Collection) ];
       __bases__ := [ModelViewSet.cls];
       mro_tail := [ModelViewSet.cls; object_] |} []
  = ModelViewSet.register_routes TestApp.CollectionViewSet [].
Proof.
  apply (reordered_body_registers_alike TestApp.CollectionViewSet
           [ ("detail", TestApp.view TestApp.retrieve_tagged);
             ("retrieve", TestApp.view TestApp.retrieve_plain);
             ("model_class", VModelClass TestApp.Collection) ] []).
  - repeat constructor; cbn; intuition discriminate.
  - cbn [__dict__ TestApp.CollectionViewSet TestApp.CollectionViewSet_attrs].
    exact (Permutation_rev
             [ ("model_class", VModelClass TestApp.Collection);
               ("retrieve", TestApp.view TestApp.retrieve_plain);
               ("detail", TestApp.view TestApp.retrieve_tagged) ]).
Defined.

Lemma for_attr_name_no_views (cls : pyclass) (names : list string) :
  Forall (fun n => hasattr cls n = true) names ->
  views_among cls names = [] ->
  forall router, ModelViewSet.for_attr_name cls names router = Ok router.
Proof.
  induction 1 as [| n names Hn Hall IH]; intros Hv router; [reflexivity |].
  cbn [ModelViewSet.for_attr_name]. unfold views_among in Hv.
  cbn [flat_map] in Hv. apply app_eq_nil in Hv. destruct Hv as [Hv1 Hv2].
  unfold hasattr in Hn. unfold getattr at 1.
  destruct (mro_lookup n (__mro__ cls)) as [v |]; [| discriminate].
  cbn [bind]. destruct v; cbn [isinstance_AbstractModelView];
    try (apply IH; exact Hv2).
  discriminate Hv1.
Qed.

(** A class that holds no view, [ModelViewSet] itself for one, leaves the
    router as it is, also when it has no [model_class]. *)
Theorem register_routes_without_views (cls : pyclass) (router : Router) :
  view_attributes cls = [] ->
  ModelViewSet.register_routes cls router = Ok router.
Proof.
  intros Hv. unfold ModelViewSet.register_routes.
  apply for_attr_name_no_views; [| exact Hv].
  apply Forall_forall. intros n. apply dir_In.
Qed.

(** [ModelViewSet] itself holds no view. *)
Lemma register_routes_without_views_witness :
  ModelViewSet.register_routes ModelViewSet.cls [] = Ok [].
Proof. apply register_routes_without_views. reflexivity. Defined.




(** ** Outcomes of validation, inherited and rebound attributes, collisions *)

Lemma string_append_cancel (s a b : string) :
  (s ++ a)%string = (s ++ b)%string -> a = b.
Proof.
  induction s as [| c s IH]; cbn [String.append]; intros H.
  - exact H.
  - inversion H. auto.
Qed.

Lemma type_new_fields (oid : positive) (name : string) (bases : list pyclass)
  (attrs : namespace) (new_cls : pyclass) :
  type_new oid name bases attrs = Ok new_cls ->
  cls_id new_cls = oid /\ __name__ new_cls = name /\ __dict__ new_cls = attrs.
Proof.
  unfold type_new.
  destruct (mro_merge _) as [tail |]; intros H; inversion H; subst.
  repeat split.
Qed.

(** [validate_model_class] has three outcomes, told apart by what
    [model_class] is: it returns when [model_class] is a subclass of
    [Model]; it raises [ValueError] with "... class attribute must be set"
    exactly when the attribute is missing, and with "... must be a subclass
    of django.db.models.Model" exactly when it is bound to something else.
    It raises nothing but [ValueError]. *)
Theorem validate_model_class_outcomes (cls : pyclass) :
  (ModelViewSetMeta.validate_model_class cls = Ok tt
   <-> exists m, getattr cls "model_class" = Ok (VModelClass m))
  /\ (ModelViewSetMeta.validate_model_class cls
      = Raise (ValueError
          (__name__ cls ++ ".model_class class attribute must be set"))
      <-> hasattr cls "model_class" = false)
  /\ (ModelViewSetMeta.validate_model_class cls
      = Raise (ValueError
          (__name__ cls
             ++ ".model_class must be a subclass of django.db.models.Model"))
      <-> exists v, getattr cls "model_class" = Ok v
                    /\ isinstance_type v && issubclass_Model v = false)
  /\ (forall e,
        ModelViewSetMeta.validate_model_class cls = Raise e ->
        exists msg, e = ValueError msg).
Proof.
  split; [apply validate_model_class_ok |].
  unfold ModelViewSetMeta.validate_model_class, hasattr, getattr.
  destruct (mro_lookup "model_class" (__mro__ cls)) as [v |];
    cbn [negb bind].
  - split; [split; [| discriminate] |].
    { destruct v; cbn; intros H; try discriminate;
        inversion H as [E]; apply string_append_cancel in E; discriminate. }
    split.
    + split.
      * intros H. exists v. split; [reflexivity |].
        destruct v; cbn in *; try reflexivity; discriminate.
      * intros [w [Hw Hbad]]. inversion Hw; subst w.
        destruct v; cbn in *; try reflexivity; discriminate.
    + intros e. destruct v; cbn; intros H; inversion H; eauto.
  - split; [split; reflexivity |]. split.
    + split.
      * intros H. inversion H as [E]. apply string_append_cancel in E.
        discriminate.
      * intros [w [Hw _]]. discriminate.
    + intros e H. inversion H. eauto.
Qed.

Lemma getattr_own (cls : pyclass) (name : string) (v : value) :
  ns_lookup name (__dict__ cls) = Some v -> getattr cls name = Ok v.
Proof.
  intros H. apply getattr_lookup. unfold __mro__. cbn [mro_lookup].
  rewrite H. reflexivity.
Qed.

Lemma mro_lookup_inherited (cls : pyclass) (name : string) :
  ns_lookup name (__dict__ cls) = None ->
  mro_lookup name (__mro__ cls) = mro_lookup name (mro_tail cls).
Proof.
  intros H. unfold __mro__. cbn [mro_lookup]. rewrite H. reflexivity.
Qed.

(** A class statement with one base that binds no [model_class] of its own
    is accepted when the base has a valid one: the new class has the
    [model_class] of its base, and registers its views with it. *)
Theorem subclass_inherits_model_class
  (oid : positive) (name : string) (base : pyclass) (attrs : namespace)
  (model_class : DjangoModel) :
  distinct_ids (__mro__ base) ->
  ns_lookup "model_class" attrs = None ->
  getattr base "model_class" = Ok (VModelClass model_class) ->
  exists new_cls,
    ModelViewSetMeta.__new__ oid name [base] attrs = Ok new_cls
    /\ __mro__ new_cls = new_cls :: __mro__ base
    /\ getattr new_cls "model_class" = Ok (VModelClass model_class)
    /\ forall router,
         ModelViewSet.register_routes new_cls router
         = Ok (register_each model_class (view_attributes new_cls) router).
Proof.
  intros Hd Hown Hbase.
  pose proof (single_base_mro oid name base attrs Hd) as Hnew.
  set (new_cls := {| cls_id := oid; __name__ := name; __dict__ := attrs;
                     __bases__ := [base]; mro_tail := __mro__ base |}) in *.
  assert (Hm : getattr new_cls "model_class" = Ok (VModelClass model_class)).
  { apply getattr_lookup. rewrite mro_lookup_inherited by exact Hown.
    apply getattr_lookup. exact Hbase. }
  exists new_cls. split; [| split; [reflexivity | split; [exact Hm |]]].
  - exact (valid_class_is_created oid name [base] attrs new_cls model_class
             Hnew Hm).
  - intros router. apply register_routes_views, Hm.
Qed.

(** When the class body binds [model_class], that binding alone decides
    the check, whatever the bases hold: a subclass of [Model] lets the class
    through, anything else raises the "must be a subclass" [ValueError]
    under the name of the new class. *)
Theorem own_model_class_decides
  (oid : positive) (name : string) (bases : list pyclass) (attrs : namespace)
  (new_cls : pyclass) (v : value) :
  name <> "ModelViewSet" ->
  type_new oid name bases attrs = Ok new_cls ->
  ns_lookup "model_class" attrs = Some v ->
  ModelViewSetMeta.__new__ oid name bases attrs
  = if isinstance_type v && issubclass_Model v
    then Ok new_cls
    else Raise (ValueError
           (name
              ++ ".model_class must be a subclass of django.db.models.Model")).
Proof.
  intros Hname Hnew Hown.
  destruct (type_new_fields _ _ _ _ _ Hnew) as [_ [Hn Hdict]].
  assert (Hget : getattr new_cls "model_class" = Ok v)
    by (apply getattr_own; rewrite Hdict; exact Hown).
  unfold ModelViewSetMeta.__new__. rewrite Hnew. cbn [bind].
  apply String.eqb_neq in Hname. rewrite Hname. cbn [negb].
  destruct (validate_model_class_outcomes new_cls) as [Hok [_ [Hbad _]]].
  destruct (isinstance_type v && issubclass_Model v) eqn:E.
  - destruct v; try discriminate E.
    rewrite (proj2 Hok) by eauto. reflexivity.
  - rewrite (proj2 Hbad) by eauto. rewrite Hn. reflexivity.
Qed.

(** With views that register one route each, [register_routes] appends
    one route per view and leaves what the router held in place; the routes
    it appends do not depend on the router, so two routers get the same
    routes from one view set. *)
Theorem register_routes_appends
  (cls : pyclass) (model_class : DjangoModel) :
  getattr cls "model_class" = Ok (VModelClass model_class) ->
  Forall registers_one_route (map snd (view_attributes cls)) ->
  exists routes,
    length routes = length (view_attributes cls)
    /\ forall router,
         ModelViewSet.register_routes cls router = Ok (router ++ routes).
Proof.
  intros Hm Hone.
  destruct (register_each_routes model_class _ Hone) as [routes [Hlen Hr]].
  exists routes. split; [exact Hlen |]. intros router.
  rewrite (register_routes_views cls model_class router Hm), Hr. reflexivity.
Qed.

Lemma register_each_retrieve (utils : Utils) (m : DjangoModel)
  (calls : list (string * AbstractModelView.t)) :
  (forall n view, In (n, view) calls ->
                  exists v, view = RetrieveModelView.as_view utils v) ->
  exists routes,
    length routes = length calls
    /\ Forall (retrieve_route_shape utils m) routes
    /\ forall router, register_each m calls router = router ++ routes.
Proof.
  induction calls as [| [n view] calls IH]; intros Hall.
  - exists []. split; [reflexivity |]. split; [constructor |].
    intros router. cbn. rewrite app_nil_r. reflexivity.
  - destruct (Hall n view (or_introl eq_refl)) as [v ->].
    destruct IH as [routes [Hlen [Hshape Hr]]].
    { intros n' view' Hin. apply (Hall n' view'). right. exact Hin. }
    exists
      ({| rc_verb := GET;
          rc_kwargs :=
            [ ("path", KStr (RetrieveModelView.get_path v));
              ("response", KSchema (RetrieveModelView.output_schema v));
              ("operation_id",
                KStr ("retrieve_" ++ to_snake_case utils (model_name m)));
              ("summary", KStr ("Retrieve " ++ model_name m)) ];
          rc_view_func :=
            merge_decorators utils (RetrieveModelView.decorators v)
              (RetrieveModelView.retrieve_model utils v m) |} :: routes).
    split; [cbn [length]; rewrite Hlen; reflexivity |].
    split.
    + constructor; [| exact Hshape]. repeat split.
    + intros router. unfold register_each in *. cbn [fold_left snd].
      rewrite Hr.
      cbn [AbstractModelView.register_route RetrieveModelView.as_view].
      unfold RetrieveModelView.register_route, router_get,
        router_api_operation.
      rewrite <- app_assoc. reflexivity.
Qed.

(** The routes of the Retrieve views of one view set all have the verb
    GET, the path "/{id}" and the operation id made from the name of the
    model: two Retrieve views on a view set register colliding routes, and
    [register_routes] registers both. *)
Theorem retrieve_views_share_path_and_operation_id
  (utils : Utils) (cls : pyclass) (model_class : DjangoModel) :
  getattr cls "model_class" = Ok (VModelClass model_class) ->
  (forall name view,
     In (name, view) (view_attributes cls) ->
     exists v, view = RetrieveModelView.as_view utils v) ->
  exists routes,
    length routes = length (view_attributes cls)
    /\ Forall (retrieve_route_shape utils model_class) routes
    /\ forall router,
         ModelViewSet.register_routes cls router = Ok (router ++ routes).
Proof.
  intros Hm Hall.
  destruct (register_each_retrieve utils model_class _ Hall)
    as [routes [Hlen [Hshape Hr]]].
  exists routes. split; [exact Hlen |]. split; [exact Hshape |].
  intros router.
  rewrite (register_routes_views cls model_class router Hm), Hr. reflexivity.
Qed.

Lemma CollectionViewSet_views :
  view_attributes TestApp.CollectionViewSet
  = [ ("detail",
        RetrieveModelView.as_view spec_utils TestApp.retrieve_tagged);
      ("retrieve",
        RetrieveModelView.as_view spec_utils TestApp.retrieve_plain) ].
Proof. reflexivity. Qed.

(** The two Retrieve views of [CollectionViewSet]. *)
Lemma retrieve_views_share_path_and_operation_id_witness :
  exists routes,
    length routes = length (view_attributes TestApp.CollectionViewSet)
    /\ Forall (retrieve_route_shape spec_utils TestApp.Collection) routes
    /\ forall router,
         ModelViewSet.register_routes TestApp.CollectionViewSet router
         = Ok (router ++ routes).
Proof.
  apply (retrieve_views_share_path_and_operation_id spec_utils
           TestApp.CollectionViewSet TestApp.Collection).
  - reflexivity.
  - rewrite CollectionViewSet_views. intros name view [H | [H | []]];
      inversion H; eauto.
Defined.

(** [register_routes_appends] on [CollectionViewSet]. *)
Lemma register_routes_appends_witness :
  exists routes,
    length routes = length (view_attributes TestApp.CollectionViewSet)
    /\ forall router,
         ModelViewSet.register_routes TestApp.CollectionViewSet router
         = Ok (router ++ routes).
Proof.
  apply (register_routes_appends TestApp.CollectionViewSet TestApp.Collection).
  - reflexivity.
  - rewrite CollectionViewSet_views.
    repeat constructor; apply retrieve_registers_one_route.
Defined.

(** [ArchiveViewSet], whose body is empty. *)
Lemma subclass_inherits_model_class_witness :
  exists new_cls,
    ModelViewSetMeta.__new__ 13 "ArchiveViewSet" [TestApp.CollectionViewSet] []
    = Ok new_cls
    /\ __mro__ new_cls = new_cls :: __mro__ TestApp.CollectionViewSet
    /\ getattr new_cls "model_class" = Ok (VModelClass TestApp.Collection)
    /\ forall router,
         ModelViewSet.register_routes new_cls router
         = Ok (register_each TestApp.Collection (view_attributes new_cls)
                 router).
Proof.
  apply (subclass_inherits_model_class 13 "ArchiveViewSet"
           TestApp.CollectionViewSet [] TestApp.Collection).
  - unfold distinct_ids. cbn. repeat constructor; cbn; intuition discriminate.
  - reflexivity.
  - reflexivity.
Defined.

(** A subclass of [CollectionViewSet] that rebinds [model_class] to a
    string. *)
Lemma own_model_class_decides_witness :
  ModelViewSetMeta.__new__ 20 "BrokenViewSet" [TestApp.CollectionViewSet]
    [("model_class", VStr "Item")]
  = Raise (ValueError
      "BrokenViewSet.model_class must be a subclass of django.db.models.Model").
Proof.
  eapply (own_model_class_decides 20 "BrokenViewSet"
            [TestApp.CollectionViewSet] [("model_class", VStr "Item")] _
            (VStr "Item")).
  - discriminate.
  - reflexivity.
  - reflexivity.
Defined.

(** [DetailOnlyViewSet] is created and registers [detail] only. *)
Example DetailOnlyViewSet_registers_detail_only :
  ModelViewSetMeta.__new__ 14 "DetailOnlyViewSet" [TestApp.CollectionViewSet]
    [("retrieve", VNone)] = Ok TestApp.DetailOnlyViewSet
  /\ map fst (view_attributes TestApp.CollectionViewSet)
     = ["detail"; "retrieve"]
  /\ map fst (view_attributes TestApp.DetailOnlyViewSet) = ["detail"].
Proof. repeat split. Qed.

Lemma sorted_pairs_unique {B : Type} (l1 l2 : list (string * B)) :
  StronglySorted str_lt (map fst l1) -> StronglySorted str_lt (map fst l2) ->
  (forall n v, In (n, v) l1 <-> In (n, v) l2) -> l1 = l2.
Proof.
  revert l2. induction l1 as [| [n1 v1] l1 IH]; intros l2 H1 H2 Heq.
  - destruct l2 as [| [n2 v2] l2]; [reflexivity |].
    exfalso. apply (proj2 (Heq n2 v2)). left. reflexivity.
  - destruct l2 as [| [n2 v2] l2].
    + exfalso. apply (proj1 (Heq n1 v1)). left. reflexivity.
    + cbn [map fst] in H1, H2.
      inversion H1 as [| ? ? Hs1 Hx]; subst.
      inversion H2 as [| ? ? Hs2 Hy]; subst.
      rewrite Forall_forall in Hx, Hy.
      assert (below1 : forall n v, In (n, v) l1 -> str_lt n1 n)
        by (intros n v I; apply Hx; apply (in_map fst) in I; exact I).
      assert (below2 : forall n v, In (n, v) l2 -> str_lt n2 n)
        by (intros n v I; apply Hy; apply (in_map fst) in I; exact I).
      assert (E : (n1, v1) = (n2, v2)).
      { destruct (proj1 (Heq n1 v1) (or_introl eq_refl)) as [E | I];
          [auto |].
        destruct (proj2 (Heq n2 v2) (or_introl eq_refl)) as [E | I'];
          [auto |].
        exfalso. apply (str_lt_irrefl n1).
        eapply str_lt_trans; [exact (below1 _ _ I') | exact (below2 _ _ I)]. }
      inversion E; subst n2 v2. f_equal.
      apply IH; [exact Hs1 | exact Hs2 |].
      intros n v. split; intros Hin.
      * destruct (proj1 (Heq n v) (or_intror Hin)) as [E' | I]; [| exact I].
        inversion E'; subst. exfalso.
        exact (str_lt_irrefl _ (below1 _ _ Hin)).
      * destruct (proj2 (Heq n v) (or_intror Hin)) as [E' | I]; [| exact I].
        inversion E'; subst. exfalso.
        exact (str_lt_irrefl _ (below2 _ _ Hin)).
Qed.

Lemma sorted_names_filter {B : Type} (f : string * B -> bool)
  (l : list (string * B)) :
  StronglySorted str_lt (map fst l) ->
  StronglySorted str_lt (map fst (filter f l)).
Proof.
  induction l as [| x l IH]; cbn [map filter]; intros Hs; [constructor |].
  inversion Hs as [| ? ? Hl Hx]; subst.
  destruct (f x); [| exact (IH Hl)].
  cbn [map]. constructor; [exact (IH Hl) |].
  rewrite Forall_forall in *. intros n Hn. apply Hx.
  apply in_map_iff in Hn. destruct Hn as [y [Ey Hy]].
  apply filter_In in Hy. apply in_map_iff. exists y. tauto.
Qed.

Lemma view_attributes_of_subclass (cls base : pyclass) :
  mro_tail cls = __mro__ base ->
  forall name view,
    In (name, view) (view_attributes cls)
    <-> ns_lookup name (__dict__ cls) = Some (VView view)
        \/ (ns_lookup name (__dict__ cls) = None
            /\ In (name, view) (view_attributes base)).
Proof.
  intros Hmro name view.
  rewrite !view_attributes_In, !getattr_lookup.
  unfold __mro__ at 1. cbn [mro_lookup]. rewrite Hmro.
  destruct (ns_lookup name (__dict__ cls)) as [v |].
  - split.
    + intros H. left. exact H.
    + intros [H | [H _]]; [exact H | discriminate].
  - split.
    + intros H. right. split; [reflexivity | exact H].
    + intros [H | [_ H]]; [discriminate | exact H].
Qed.

(** A class that derives from one base and has a valid [model_class]
    registers the views its body binds and the views of the base whose
    names its body does not rebind. When the body binds no view, its
    [register_routes] makes the calls of the base, with its own
    [model_class], but those for the names it rebinds: rebinding an
    inherited view to [None] takes it out of the registration. *)
Theorem subclass_registers_own_and_unrebound_views
  (cls base : pyclass) (model_class : DjangoModel) (router : Router) :
  mro_tail cls = __mro__ base ->
  getattr cls "model_class" = Ok (VModelClass model_class) ->
  ModelViewSet.register_routes cls router
  = Ok (register_each model_class (view_attributes cls) router)
  /\ (forall name view,
        In (name, view) (view_attributes cls)
        <-> ns_lookup name (__dict__ cls) = Some (VView view)
            \/ (ns_lookup name (__dict__ cls) = None
                /\ In (name, view) (view_attributes base)))
  /\ ((forall name v,
         ns_lookup name (__dict__ cls) = Some v ->
         isinstance_AbstractModelView v = false) ->
      ModelViewSet.register_routes cls router
      = Ok (register_each model_class
              (filter (not_rebound cls) (view_attributes base)) router)).
Proof.
  intros Hmro Hm.
  pose proof (view_attributes_of_subclass cls base Hmro) as Hin.
  split; [apply register_routes_views, Hm |].
  split; [exact Hin |].
  intros Hnone. rewrite (register_routes_views cls model_class router Hm).
  f_equal. f_equal. apply sorted_pairs_unique.
  - apply view_attributes_sorted.
  - apply sorted_names_filter, view_attributes_sorted.
  - intros name view. rewrite Hin, filter_In. unfold not_rebound. cbn [fst].
    destruct (ns_lookup name (__dict__ cls)) as [v |] eqn:E.
    + split.
      * intros [H | [H _]]; [| discriminate].
        inversion H; subst v. specialize (Hnone name _ E). discriminate.
      * intros [_ H]. discriminate.
    + split.
      * intros [H | [_ H]]; [discriminate | auto].
      * intros [H _]. right. auto.
Qed.

(** [DetailOnlyViewSet] rebinds [retrieve] to [None]: it makes the calls of
    [CollectionViewSet] but the one for [retrieve]. *)
Lemma subclass_registers_own_and_unrebound_views_witness :
  ModelViewSet.register_routes TestApp.DetailOnlyViewSet []
  = Ok (register_each TestApp.Collection
          (filter (not_rebound TestApp.DetailOnlyViewSet)
             (view_attributes TestApp.CollectionViewSet)) [])
  /\ map fst
       (filter (not_rebound TestApp.DetailOnlyViewSet)
          (view_attributes TestApp.CollectionViewSet))
     = ["detail"].
Proof.
  split; [| reflexivity].
  apply (proj2 (proj2
    (subclass_registers_own_and_unrebound_views TestApp.DetailOnlyViewSet
       TestApp.CollectionViewSet TestApp.Collection [] eq_refl eq_refl))).
  intros name v. cbn [ns_lookup __dict__ TestApp.DetailOnlyViewSet].
  destruct (name =? "retrieve")%string; intros H; inversion H; reflexivity.
Defined.

(** One route for [DetailOnlyViewSet], two for its base. *)
Example DetailOnlyViewSet_registers_one_route :
  match ModelViewSet.register_routes TestApp.CollectionViewSet [],
        ModelViewSet.register_routes TestApp.DetailOnlyViewSet [] with
  | Ok base_routes, Ok routes => (length base_routes, length routes)
  | _, _ => (0, 0)%nat
  end = (2, 1)%nat.
Proof. reflexivity. Qed.
